(** * The Hartree-Fock initial point of qiskit-nature

    A shallow embedding of
    [qiskit_nature/algorithms/initial_points/hf_initial_point.py]
    (class [HFInitialPoint]) and the properties of its setters, of
    [compute], [to_numpy_array] and [get_energy].

    Python objects are records, [None] is [None] of [option], floats are
    binary64 primitive floats, a NumPy vector is a list of floats.  Methods
    are computations in a small state monad over the instance that also
    carries the raised exception and the emitted warnings. *)

From Stdlib Require Import Floats.PrimFloat ZArith.
From stdpp Require Import gmap strings list.

Open Scope string_scope.

(** ** Data model *)

(** One excitation: the occupied indices removed and the virtual indices
    added, [tuple[tuple[int, ...], tuple[int, ...]]]. *)
Definition excitation : Type := list Z * list Z.

(** A one-dimensional [np.ndarray] of float64. *)
Definition ndarray : Type := list float.

(** [np.zeros(n)]: [n] entries, each positive zero. *)
Definition np_zeros (n : nat) : ndarray := replicate n 0%float.

(** The exceptions the class can raise. *)
Inductive exn : Type :=
| QiskitNatureError (msg : string)
| TypeError (msg : string).

(** Modelled from the spec: the [UCC] circuit class
    ([qiskit_nature.circuit.library]) is not among the sources.  The class
    uses two of its attributes: reading [operators] forces the circuit to
    materialise its operator terms, which populates its excitation list as a
    side effect, and [excitation_list] reads that list, a list or [None].
    [ucc_generated] is the list the circuit's generator yields, [None] for a
    circuit that is not configured and generates nothing;
    [ucc_excitation_list] is the private list, [None] until operators have
    been built. *)
Record UCC : Type := mkUCC {
  ucc_name : string;
  ucc_generated : option (list excitation);
  ucc_excitation_list : option (list excitation)
}.

(** Modelled from the spec: reading [ansatz.operators], which is not among
    the sources, gives the ansatz object after the read.  A configured
    circuit stores the list it generates; a circuit that generates nothing
    keeps its private list as it was. *)
Definition operators (a : UCC) : UCC :=
  {| ucc_name := ucc_name a;
     ucc_generated := ucc_generated a;
     ucc_excitation_list :=
       match ucc_generated a with
       | Some l => Some l
       | None => ucc_excitation_list a
       end |}.

(** Modelled from the spec: reading [ansatz.excitation_list], which is not
    among the sources, gives the private list, a list or [None]. *)
Definition excitation_list (a : UCC) : option (list excitation) :=
  ucc_excitation_list a.

(** Modelled from the spec: the property classes
    ([qiskit_nature.second_quantization.operator_factories]) are not among
    the sources.  An [ElectronicEnergy] exposes a numeric-or-null
    [reference_energy]; the other property kinds carry nothing the class
    reads. *)
Record ElectronicEnergy : Type := mkElectronicEnergy {
  reference_energy : option float
}.

Inductive Property : Type :=
| PElectronicEnergy (e : ElectronicEnergy)
| POther.

(** Modelled from the spec: the property container is a collection of
    properties keyed by the name of their kind. *)
Record GroupedSecondQuantizedProperty : Type := mkGrouped {
  _properties : gmap string Property
}.

(** Modelled from the spec: [grouped_property.get_property(ElectronicEnergy)],
    the lookup by kind, returns the matching property or [None]. *)
Definition get_property_ElectronicEnergy
    (g : GroupedSecondQuantizedProperty) : option ElectronicEnergy :=
  match _properties g !! "ElectronicEnergy" with
  | Some (PElectronicEnergy e) => Some e
  | _ => None
  end.

(** The instance.  [_reference_energy] is annotated [float] in the source, but
    Python stores whatever is assigned, so the field is numeric-or-null here.
    [_grouped_property] is the field of the inherited [InitialPoint]. *)
Record HFInitialPoint : Type := mkHF {
  _ansatz : option UCC;
  _excitation_list : option (list excitation);
  _reference_energy : option float;
  _parameters : option ndarray;
  _grouped_property : option GroupedSecondQuantizedProperty
}.

(** [HFInitialPoint.__init__].

    Modelled from the spec: the inherited [InitialPoint.__init__] is not
    among the sources; a new instance holds no property container. *)
Definition init : HFInitialPoint :=
  {| _ansatz := None;
     _excitation_list := None;
     _reference_energy := Some 0%float;
     _parameters := None;
     _grouped_property := None |}.

(** Field assignments [self._x = v]. *)
Definition set_ansatz (v : option UCC) (s : HFInitialPoint) : HFInitialPoint :=
  {| _ansatz := v;
     _excitation_list := _excitation_list s;
     _reference_energy := _reference_energy s;
     _parameters := _parameters s;
     _grouped_property := _grouped_property s |}.

Definition set_excitation_list (v : option (list excitation))
    (s : HFInitialPoint) : HFInitialPoint :=
  {| _ansatz := _ansatz s;
     _excitation_list := v;
     _reference_energy := _reference_energy s;
     _parameters := _parameters s;
     _grouped_property := _grouped_property s |}.

Definition set_reference_energy (v : option float)
    (s : HFInitialPoint) : HFInitialPoint :=
  {| _ansatz := _ansatz s;
     _excitation_list := _excitation_list s;
     _reference_energy := v;
     _parameters := _parameters s;
     _grouped_property := _grouped_property s |}.

Definition set_parameters (v : option ndarray)
    (s : HFInitialPoint) : HFInitialPoint :=
  {| _ansatz := _ansatz s;
     _excitation_list := _excitation_list s;
     _reference_energy := _reference_energy s;
     _parameters := v;
     _grouped_property := _grouped_property s |}.

Definition set_grouped_property (v : option GroupedSecondQuantizedProperty)
    (s : HFInitialPoint) : HFInitialPoint :=
  {| _ansatz := _ansatz s;
     _excitation_list := _excitation_list s;
     _reference_energy := _reference_energy s;
     _parameters := _parameters s;
     _grouped_property := v |}.

(** ** Method calls: state, exceptions and warnings *)

Inductive outcome (A : Type) : Type :=
| Return (a : A)
| Raise (e : exn).
Arguments Return {A} a.
Arguments Raise {A} e.

(** What a call leaves behind: how it ended, the instance afterwards (also
    when it raised) and the warnings it emitted, oldest first. *)
Record result (A : Type) : Type := mkResult {
  value : outcome A;
  self_after : HFInitialPoint;
  warned : list string
}.
Arguments mkResult {A} value self_after warned.
Arguments value {A} r.
Arguments self_after {A} r.
Arguments warned {A} r.

Definition M (A : Type) : Type := HFInitialPoint -> result A.

Definition ret {A : Type} (a : A) : M A :=
  fun s => mkResult (Return a) s [].

Definition bind {A B : Type} (m : M A) (k : A -> M B) : M B :=
  fun s =>
    let r := m s in
    match value r with
    | Return a =>
        let r' := k a (self_after r) in
        mkResult (value r') (self_after r') (warned r ++ warned r')
    | Raise e => mkResult (Raise e) (self_after r) (warned r)
    end.

Definition raise {A : Type} (e : exn) : M A :=
  fun s => mkResult (Raise e) s [].

(** [warnings.warn(msg)] *)
Definition warn (msg : string) : M unit :=
  fun s => mkResult (Return tt) s [msg].

Definition get : M HFInitialPoint :=
  fun s => mkResult (Return s) s [].

Definition modify (f : HFInitialPoint -> HFInitialPoint) : M unit :=
  fun s => mkResult (Return tt) (f s) [].

Notation "x <- m ;;; k" := (bind m (fun x => k))
  (at level 100, m at next level, right associativity).
Notation "m ;;; k" := (bind m (fun _ => k))
  (at level 100, right associativity).

(** ** The methods of [HFInitialPoint] *)

(** The text of the warning of the [grouped_property] setter. *)
Definition missing_energy_warning : string :=
  "The ElectronicEnergy was not obtained from the grouped_property. "
  ++ "The grouped_property and reference_energy will not be set.".

(** The text of the error of [compute]. *)
Definition no_excitations_message : string :=
  "The excitation list has not been set directly or via the ansatz. "
  ++ "Not enough information has been provided to compute the initial point. "
  ++ "Set the ansatz or call compute with it as an argument. "
  ++ "The ansatz is not required if the excitation list has been set directly.".

(** Python's truth value of [None]. *)
Definition bool_of_None : bool := false.

(** The setter of [grouped_property].  The conditional expression
    [x if not None else 0.0] tests the constant [None]. *)
Definition grouped_property_setter
    (grouped_property : GroupedSecondQuantizedProperty) : M unit :=
  let electronic_energy := get_property_ElectronicEnergy grouped_property in
  match electronic_energy with
  | None =>
      warn missing_energy_warning ;;;
      ret tt
  | Some electronic_energy =>
      modify (set_reference_energy
                (if negb bool_of_None
                 then reference_energy electronic_energy
                 else Some 0%float)) ;;;
      modify (set_grouped_property (Some grouped_property))
  end.

(** The setter of [ansatz].  Reading [ansatz.operators] changes the ansatz
    object; the reads that follow, and the stored reference, see the object
    after it. *)
Definition ansatz_setter (ansatz : UCC) : M unit :=
  let ansatz := operators ansatz in
  modify (set_parameters None) ;;;
  modify (set_excitation_list (excitation_list ansatz)) ;;;
  modify (set_ansatz (Some ansatz)).

(** The setter of [excitation_list]. *)
Definition excitation_list_setter (excitations : list excitation) : M unit :=
  modify (set_parameters None) ;;;
  modify (set_excitation_list (Some excitations)).

(** [_compute]: [len(None)] is a [TypeError]. *)
Definition _compute : M unit :=
  self <- get ;;;
  match _excitation_list self with
  | Some l => modify (set_parameters (Some (np_zeros (length l))))
  | None => raise (TypeError "object of type 'NoneType' has no len()")
  end.

Definition compute (ansatz : option UCC)
    (grouped_property : option GroupedSecondQuantizedProperty) : M unit :=
  match grouped_property with
  | Some g => grouped_property_setter g
  | None => ret tt
  end ;;;
  match ansatz with
  | Some a => ansatz_setter a
  | None => ret tt
  end ;;;
  self <- get ;;;
  match _excitation_list self with
  | None =>
      raise (QiskitNatureError no_excitations_message)
  | Some _ => _compute
  end.

Definition to_numpy_array : M (option ndarray) :=
  self <- get ;;;
  match _parameters self with
  | None => compute None None
  | Some _ => ret tt
  end ;;;
  self <- get ;;;
  ret (_parameters self).

Definition get_energy : M (option float) :=
  self <- get ;;;
  ret (_reference_energy self).

(** ** Sequences of calls *)

(** The calls a client can make.  A client may catch an exception and go on
    using the instance, so a sequence continues from the instance a raising
    call leaves behind. *)
Inductive Op : Type :=
| OpSetAnsatz (a : UCC)
| OpSetExcitationList (l : list excitation)
| OpSetGroupedProperty (g : GroupedSecondQuantizedProperty)
| OpCompute (a : option UCC) (g : option GroupedSecondQuantizedProperty)
| OpToNumpyArray
| OpGetEnergy.

Definition exec (s : HFInitialPoint) (o : Op) : HFInitialPoint :=
  match o with
  | OpSetAnsatz a => self_after (ansatz_setter a s)
  | OpSetExcitationList l => self_after (excitation_list_setter l s)
  | OpSetGroupedProperty g => self_after (grouped_property_setter g s)
  | OpCompute a g => self_after (compute a g s)
  | OpToNumpyArray => self_after (to_numpy_array s)
  | OpGetEnergy => self_after (get_energy s)
  end.

Definition run (ops : list Op) (s : HFInitialPoint) : HFInitialPoint :=
  foldl exec s ops.

(** An operation that can give the instance an excitation list. *)
Definition sets_excitations (o : Op) : bool :=
  match o with
  | OpSetAnsatz _ | OpSetExcitationList _ | OpCompute (Some _) _ => true
  | _ => false
  end.

(** The cached vector, when there is one, is the zero vector of the length of
    the stored excitation list. *)
Definition cache_ok (s : HFInitialPoint) : Prop :=
  match _parameters s with
  | None => True
  | Some v =>
      match _excitation_list s with
      | Some l => v = np_zeros (length l)
      | None => False
      end
  end.

(** ** The property getters *)

(** The getter of [grouped_property]. *)
Definition grouped_property_getter : M (option GroupedSecondQuantizedProperty) :=
  self <- get ;;;
  ret (_grouped_property self).

(** The getter of [ansatz]. *)
Definition ansatz_getter : M (option UCC) :=
  self <- get ;;;
  ret (_ansatz self).

(** The getter of [excitation_list]. *)
Definition excitation_list_getter : M (option (list excitation)) :=
  self <- get ;;;
  ret (_excitation_list self).

(** ** Views of calls and instances used in the statements *)

(** The setter calls that stand for the arguments of
    [compute(ansatz, grouped_property)], in the order [compute] makes them. *)
Definition argument_calls (a : option UCC)
    (g : option GroupedSecondQuantizedProperty) : list Op :=
  match g with Some g => [OpSetGroupedProperty g] | None => [] end ++
  match a with Some a => [OpSetAnsatz a] | None => [] end.

(** The warnings a container argument causes. *)
Definition argument_warnings
    (g : option GroupedSecondQuantizedProperty) : list string :=
  match g with
  | Some g =>
      match get_property_ElectronicEnergy g with
      | Some _ => []
      | None => [missing_energy_warning]
      end
  | None => []
  end.

(** An operation that hands over a container yielding an electronic energy. *)
Definition applies_energy (o : Op) : bool :=
  match o with
  | OpSetGroupedProperty g | OpCompute _ (Some g) =>
      match get_property_ElectronicEnergy g with
      | Some _ => true
      | None => false
      end
  | _ => false
  end.

(** An operation that hands over an ansatz whose excitation list, after its
    operators were built, is [None]. *)
Definition ansatz_without_list (o : Op) : bool :=
  match o with
  | OpSetAnsatz a | OpCompute (Some a) _ =>
      match excitation_list (operators a) with
      | Some _ => false
      | None => true
      end
  | _ => false
  end.

(** An operation that assigns the excitation list directly. *)
Definition sets_list_directly (o : Op) : bool :=
  match o with
  | OpSetExcitationList _ => true
  | _ => false
  end.

(** The excitation list of the stored ansatz. *)
Definition list_of_ansatz (s : HFInitialPoint) : option (list excitation) :=
  match _ansatz s with
  | Some a => excitation_list a
  | None => None
  end.

(** The stored energy is the one of the stored container, and 0.0 without a
    stored container. *)
Definition energy_ok (s : HFInitialPoint) : Prop :=
  match _grouped_property s with
  | Some g =>
      exists e, get_property_ElectronicEnergy g = Some e /\
                _reference_energy s = reference_energy e
  | None => _reference_energy s = Some 0%float
  end.

(** ** Sample data *)

(** The excitation list of the scenario [[((0,), (2,)), ((1,), (3,))]]. *)
Definition sample_excitations : list excitation :=
  [([0%Z], [2%Z]); ([1%Z], [3%Z])].

(** Two single excitations and one double excitation. *)
Definition sample_ansatz_list : list excitation :=
  [([0%Z], [2%Z]); ([1%Z], [3%Z]); ([0%Z; 1%Z], [2%Z; 3%Z])].

(** An ansatz whose operators have not been built yet and whose generator
    yields [sample_ansatz_list]. *)
Definition sample_ansatz : UCC :=
  {| ucc_name := "UCCSD";
     ucc_generated := Some sample_ansatz_list;
     ucc_excitation_list := None |}.

(** An ansatz that is not configured: building its operators yields no
    excitation list. *)
Definition bare_ansatz : UCC :=
  {| ucc_name := "UCC";
     ucc_generated := None;
     ucc_excitation_list := None |}.

(** The binary64 value nearest to [-1.137]. *)
Definition sample_energy : float := (-0x1.23126e978d4fep+0)%float.

(** A container with an electronic energy of reference energy [-1.137]. *)
Definition container_with_energy : GroupedSecondQuantizedProperty :=
  mkGrouped
    (<["ElectronicEnergy" := PElectronicEnergy (mkElectronicEnergy (Some sample_energy))]>
       {["ParticleNumber" := POther]}).

(** A container whose electronic energy has a null reference energy. *)
Definition container_with_null_energy : GroupedSecondQuantizedProperty :=
  mkGrouped {["ElectronicEnergy" := PElectronicEnergy (mkElectronicEnergy None)]}.

(** A container without an electronic energy. *)
Definition container_without_energy : GroupedSecondQuantizedProperty :=
  mkGrouped {["ParticleNumber" := POther]}.

(** ** Helper lemmas *)

Ltac unfold_calls :=
  unfold to_numpy_array, get_energy, compute, _compute, ansatz_setter,
    excitation_list_setter, grouped_property_setter, bind, ret, raise, warn,
    get, modify in *.

Ltac step_calls := unfold_calls; cbn in *.

Lemma length_np_zeros (n : nat) : length (np_zeros n) = n.
Proof. apply length_replicate. Qed.

Lemma np_zeros_all_zero (n : nat) : Forall (fun x => x = 0%float) (np_zeros n).
Proof.
  unfold np_zeros. induction n as [|n IH]; cbn; constructor; auto.
Qed.

(** The frame of the property setter: it touches neither the excitation list,
    nor the cached vector, nor the ansatz. *)
Lemma grouped_property_setter_frame g s :
  let s' := self_after (grouped_property_setter g s) in
  _excitation_list s' = _excitation_list s /\
  _parameters s' = _parameters s /\
  _ansatz s' = _ansatz s.
Proof.
  step_calls. destruct (get_property_ElectronicEnergy g); cbn; auto.
Qed.

Lemma grouped_property_setter_returns g s :
  value (grouped_property_setter g s) = Return tt.
Proof.
  step_calls. destruct (get_property_ElectronicEnergy g); reflexivity.
Qed.

(** [compute()] on an instance that has an excitation list. *)
Lemma compute_bare_some s l :
  _excitation_list s = Some l ->
  compute None None s =
    mkResult (Return tt) (set_parameters (Some (np_zeros (length l))) s) [].
Proof.
  intros H. step_calls. rewrite H. cbn. rewrite H. reflexivity.
Qed.

(** [compute()] on an instance that has none. *)
Lemma compute_bare_none s :
  _excitation_list s = None ->
  compute None None s =
    mkResult (Raise (QiskitNatureError no_excitations_message)) s [].
Proof.
  intros H. step_calls. rewrite H. reflexivity.
Qed.

Lemma cache_ok_init : cache_ok init.
Proof. exact I. Qed.

Lemma cache_ok_compute a g s : cache_ok s -> cache_ok (self_after (compute a g s)).
Proof.
  intros Hs. unfold cache_ok in *.
  destruct g as [g|]; [destruct (get_property_ElectronicEnergy g) eqn:Eg|];
    destruct a as [[n [gl|] [pl|]]|]; step_calls; rewrite ?Eg; cbn;
    try reflexivity.
  all: destruct (_excitation_list s) eqn:E; cbn; rewrite ?E; cbn; rewrite ?E; auto.
Qed.

Lemma cache_ok_exec s o : cache_ok s -> cache_ok (exec s o).
Proof.
  intros Hs. destruct o as [a|l|g|a g| |]; cbn [exec].
  - exact I.
  - exact I.
  - unfold cache_ok.
    destruct (grouped_property_setter_frame g s) as (He & Hp & _).
    rewrite He, Hp. exact Hs.
  - apply cache_ok_compute, Hs.
  - unfold to_numpy_array, bind, get; cbn -[compute].
    destruct (_parameters s) eqn:Ep; cbn -[compute].
    + exact Hs.
    + destruct (_excitation_list s) as [l|] eqn:El.
      * rewrite (compute_bare_some s l El). cbn.
        unfold cache_ok. cbn. rewrite El. reflexivity.
      * rewrite (compute_bare_none s El). cbn. exact Hs.
  - exact Hs.
Qed.

Lemma cache_ok_run ops : forall s, cache_ok s -> cache_ok (run ops s).
Proof.
  unfold run. induction ops as [|o ops IH]; intros s Hs; cbn.
  - exact Hs.
  - apply IH, cache_ok_exec, Hs.
Qed.

(** An operation that sets no excitations leaves an absent list absent. *)
Lemma exec_keeps_no_excitations s o :
  sets_excitations o = false ->
  _excitation_list s = None ->
  _excitation_list (exec s o) = None.
Proof.
  intros Ho Hs. destruct o as [a|l|g|[a|] g| |]; cbn in Ho; try discriminate;
    cbn [exec].
  - destruct (grouped_property_setter_frame g s) as (He & _). congruence.
  - destruct g as [g|].
    + destruct (get_property_ElectronicEnergy g) eqn:Eg; step_calls;
        rewrite Eg; cbn; rewrite Hs; cbn; exact Hs.
    + rewrite (compute_bare_none s Hs). exact Hs.
  - unfold to_numpy_array, bind, get; cbn -[compute].
    destruct (_parameters s); cbn -[compute]; [exact Hs|].
    rewrite (compute_bare_none s Hs). exact Hs.
  - exact Hs.
Qed.

Lemma run_keeps_no_excitations ops : forall s,
  forallb (fun o => negb (sets_excitations o)) ops = true ->
  _excitation_list s = None ->
  _excitation_list (run ops s) = None.
Proof.
  unfold run. induction ops as [|o ops IH]; intros s Hops Hs; cbn in *.
  - exact Hs.
  - apply andb_prop in Hops as [Ho Hops].
    apply IH; [exact Hops|].
    apply exec_keeps_no_excitations; [|exact Hs].
    destruct (sets_excitations o); [discriminate|reflexivity].
Qed.

(** [to_numpy_array] on an instance with a sound cache and an excitation
    list. *)
Lemma to_numpy_array_some s l :
  cache_ok s ->
  _excitation_list s = Some l ->
  value (to_numpy_array s) = Return (Some (np_zeros (length l))).
Proof.
  intros Hc Hl. unfold to_numpy_array, bind, get; cbn -[compute].
  destruct (_parameters s) as [v|] eqn:Ep; cbn -[compute].
  - rewrite Ep. unfold cache_ok in Hc. rewrite Ep, Hl in Hc. now subst v.
  - rewrite (compute_bare_some s l Hl). reflexivity.
Qed.

Lemma grouped_property_setter_some g e s :
  get_property_ElectronicEnergy g = Some e ->
  grouped_property_setter g s =
    mkResult (Return tt)
      (set_grouped_property (Some g)
         (set_reference_energy (reference_energy e) s)) [].
Proof.
  intros Hg. step_calls. rewrite Hg. reflexivity.
Qed.

Lemma grouped_property_setter_none g s :
  get_property_ElectronicEnergy g = None ->
  grouped_property_setter g s = mkResult (Return tt) s [missing_energy_warning].
Proof.
  intros Hg. step_calls. rewrite Hg. reflexivity.
Qed.

(** ** The vector *)

(** C1: for every excitation list of length n that has been set, directly or
    through the ansatz, by any sequence of calls on a new instance,
    [to_numpy_array()] returns a vector of length n whose entries are all
    exactly (positive) zero. *)
Theorem to_numpy_array_zero_vector (ops : list Op) (l : list excitation) :
  _excitation_list (run ops init) = Some l ->
  exists v : ndarray,
    value (to_numpy_array (run ops init)) = Return (Some v) /\
    length v = length l /\
    Forall (fun x => x = 0%float) v.
Proof.
  intros Hl. exists (np_zeros (length l)). split; [|split].
  - apply to_numpy_array_some; [|exact Hl].
    apply cache_ok_run, cache_ok_init.
  - apply length_np_zeros.
  - apply np_zeros_all_zero.
Qed.

Lemma to_numpy_array_zero_vector_witness :
  _excitation_list
    (run [OpSetAnsatz sample_ansatz; OpCompute None None;
          OpSetExcitationList sample_excitations] init)
    = Some sample_excitations /\
  exists v : ndarray,
    value (to_numpy_array
             (run [OpSetAnsatz sample_ansatz; OpCompute None None;
                   OpSetExcitationList sample_excitations] init))
      = Return (Some v) /\
    length v = length sample_excitations /\
    Forall (fun x => x = 0%float) v.
Proof.
  split; [reflexivity|].
  apply (to_numpy_array_zero_vector
           [OpSetAnsatz sample_ansatz; OpCompute None None;
            OpSetExcitationList sample_excitations] sample_excitations).
  reflexivity.
Defined.

(** The scenario of the excitation list [[((0,), (2,)), ((1,), (3,))]]. *)
Example to_numpy_array_scenario :
  value (to_numpy_array (run [OpSetExcitationList sample_excitations] init))
    = Return (Some [0%float; 0%float]).
Proof. reflexivity. Qed.

(** C2: on an instance on which neither an ansatz nor an excitation list was
    ever set, whatever other calls were made on it, [compute()] raises
    [QiskitNatureError]. *)
Theorem compute_without_excitations_raises (ops : list Op) :
  forallb (fun o => negb (sets_excitations o)) ops = true ->
  value (compute None None (run ops init))
    = Raise (QiskitNatureError no_excitations_message).
Proof.
  intros Hops.
  rewrite compute_bare_none; [reflexivity|].
  apply run_keeps_no_excitations; [exact Hops|reflexivity].
Qed.

Lemma compute_without_excitations_raises_witness :
  forallb (fun o => negb (sets_excitations o))
    [OpSetGroupedProperty container_with_energy; OpGetEnergy; OpToNumpyArray]
    = true /\
  value (compute None None
           (run [OpSetGroupedProperty container_with_energy; OpGetEnergy;
                 OpToNumpyArray] init))
    = Raise (QiskitNatureError no_excitations_message).
Proof.
  split; [reflexivity|].
  apply (compute_without_excitations_raises
           [OpSetGroupedProperty container_with_energy; OpGetEnergy;
            OpToNumpyArray]).
  reflexivity.
Defined.

(** [compute()] on a new instance. *)
Example compute_on_new_instance :
  compute None None init
    = mkResult (Raise (QiskitNatureError no_excitations_message)) init [].
Proof. reflexivity. Qed.

(** ** The reference energy *)

(** C3: on a container whose electronic energy has a null reference energy
    the setter stores the null itself, not zero: the test of the conditional
    expression is the constant [not None], so its [else 0.0] is never taken,
    and [get_energy()] returns [None]. *)
Theorem null_reference_energy_is_stored :
  get_property_ElectronicEnergy container_with_null_energy
    = Some (mkElectronicEnergy None) /\
  value (get_energy
           (self_after (grouped_property_setter container_with_null_energy init)))
    = Return None /\
  value (get_energy
           (self_after (grouped_property_setter container_with_null_energy init)))
    <> Return (Some 0%float).
Proof.
  split; [reflexivity|]. split; [reflexivity|]. discriminate.
Qed.

(** The same on every instance and every such container. *)
Lemma null_reference_energy_general s g e :
  get_property_ElectronicEnergy g = Some e ->
  reference_energy e = None ->
  value (get_energy (self_after (grouped_property_setter g s))) = Return None.
Proof.
  intros Hg He. rewrite (grouped_property_setter_some g e s Hg). cbn.
  rewrite He. reflexivity.
Qed.

(** C4: for every container whose electronic energy has a non-null reference
    energy E, the setter returns and [get_energy()] then returns exactly E. *)
Theorem reference_energy_round_trip
    (s : HFInitialPoint) (g : GroupedSecondQuantizedProperty)
    (e : ElectronicEnergy) (E : float) :
  get_property_ElectronicEnergy g = Some e ->
  reference_energy e = Some E ->
  value (grouped_property_setter g s) = Return tt /\
  value (get_energy (self_after (grouped_property_setter g s)))
    = Return (Some E).
Proof.
  intros Hg He. rewrite (grouped_property_setter_some g e s Hg). cbn.
  rewrite He. split; reflexivity.
Qed.

Lemma reference_energy_round_trip_witness :
  get_property_ElectronicEnergy container_with_energy
    = Some (mkElectronicEnergy (Some sample_energy)) /\
  reference_energy (mkElectronicEnergy (Some sample_energy))
    = Some sample_energy /\
  value (grouped_property_setter container_with_energy init) = Return tt /\
  value (get_energy
           (self_after (grouped_property_setter container_with_energy init)))
    = Return (Some sample_energy).
Proof.
  split; [reflexivity|]. split; [reflexivity|].
  apply (reference_energy_round_trip init container_with_energy
           (mkElectronicEnergy (Some sample_energy)) sample_energy);
    reflexivity.
Defined.

(** C5: for every container from which no electronic energy is obtained, the
    setter returns without raising, emits its one warning, and leaves the
    instance as it was: [get_energy()] returns what it returned before, which
    is 0.0 on a new instance, and the stored container is the one stored
    before. *)
Theorem missing_energy_property_leaves_instance
    (s : HFInitialPoint) (g : GroupedSecondQuantizedProperty) :
  get_property_ElectronicEnergy g = None ->
  value (grouped_property_setter g s) = Return tt /\
  warned (grouped_property_setter g s) = [missing_energy_warning] /\
  value (get_energy (self_after (grouped_property_setter g s)))
    = value (get_energy s) /\
  _grouped_property (self_after (grouped_property_setter g s))
    = _grouped_property s /\
  self_after (grouped_property_setter g s) = s /\
  value (get_energy (self_after (grouped_property_setter g init)))
    = Return (Some 0%float).
Proof.
  intros Hg. rewrite !(grouped_property_setter_none g _ Hg). cbn.
  repeat split; reflexivity.
Qed.

Lemma missing_energy_property_leaves_instance_witness :
  get_property_ElectronicEnergy container_without_energy = None /\
  value (grouped_property_setter container_without_energy
           (run [OpSetGroupedProperty container_with_energy] init))
    = Return tt /\
  warned (grouped_property_setter container_without_energy
            (run [OpSetGroupedProperty container_with_energy] init))
    = [missing_energy_warning] /\
  value (get_energy
           (self_after
              (grouped_property_setter container_without_energy
                 (run [OpSetGroupedProperty container_with_energy] init))))
    = value (get_energy (run [OpSetGroupedProperty container_with_energy] init)) /\
  _grouped_property
    (self_after
       (grouped_property_setter container_without_energy
          (run [OpSetGroupedProperty container_with_energy] init)))
    = _grouped_property (run [OpSetGroupedProperty container_with_energy] init) /\
  self_after
    (grouped_property_setter container_without_energy
       (run [OpSetGroupedProperty container_with_energy] init))
    = run [OpSetGroupedProperty container_with_energy] init /\
  value (get_energy
           (self_after (grouped_property_setter container_without_energy init)))
    = Return (Some 0%float).
Proof.
  split; [reflexivity|].
  apply (missing_energy_property_leaves_instance
           (run [OpSetGroupedProperty container_with_energy] init)
           container_without_energy).
  reflexivity.
Defined.

(** ** Invalidation of the cached vector *)

(** C6: when an ansatz is set and [compute()] is called, assigning an
    excitation list of length m afterwards clears the cached vector, and the
    next [to_numpy_array()] returns a vector of length m, for every ansatz.
    When the ansatz yields an excitation list, the call of [compute()]
    returned and had cached the zero vector of the length of that list. *)
Theorem excitation_list_invalidates_cache
    (s : HFInitialPoint) (a : UCC) (l : list excitation) :
  _parameters
    (run [OpSetAnsatz a; OpCompute None None; OpSetExcitationList l] s)
    = None /\
  value (to_numpy_array
           (run [OpSetAnsatz a; OpCompute None None; OpSetExcitationList l] s))
    = Return (Some (np_zeros (length l))) /\
  length (np_zeros (length l)) = length l /\
  (forall la : list excitation,
     excitation_list (operators a) = Some la ->
     value (compute None None (run [OpSetAnsatz a] s)) = Return tt /\
     _parameters (run [OpSetAnsatz a; OpCompute None None] s)
       = Some (np_zeros (length la))).
Proof.
  split; [reflexivity|]. split; [reflexivity|].
  split; [apply length_np_zeros|].
  intros la Ha.
  assert (Hl : _excitation_list (run [OpSetAnsatz a] s) = Some la)
    by exact Ha.
  split.
  - rewrite (compute_bare_some _ la Hl). reflexivity.
  - change (run [OpSetAnsatz a; OpCompute None None] s)
      with (self_after (compute None None (run [OpSetAnsatz a] s))).
    rewrite (compute_bare_some _ la Hl). reflexivity.
Qed.

Lemma excitation_list_invalidates_cache_witness :
  excitation_list (operators sample_ansatz) = Some sample_ansatz_list /\
  _parameters
    (run [OpSetAnsatz sample_ansatz; OpCompute None None;
          OpSetExcitationList sample_excitations] init)
    = None /\
  value (to_numpy_array
           (run [OpSetAnsatz sample_ansatz; OpCompute None None;
                 OpSetExcitationList sample_excitations] init))
    = Return (Some (np_zeros (length sample_excitations))) /\
  value (compute None None (run [OpSetAnsatz sample_ansatz] init))
    = Return tt /\
  _parameters (run [OpSetAnsatz sample_ansatz; OpCompute None None] init)
    = Some (np_zeros (length sample_ansatz_list)).
Proof.
  split; [reflexivity|].
  destruct (excitation_list_invalidates_cache init sample_ansatz
              sample_excitations) as (H1 & H2 & _ & H4).
  split; [exact H1|]. split; [exact H2|].
  apply (H4 sample_ansatz_list). reflexivity.
Defined.

(** An ansatz of three excitations, then a list of two. *)
Example excitation_list_invalidates_cache_scenario :
  value (to_numpy_array (run [OpSetAnsatz sample_ansatz] init))
    = Return (Some [0%float; 0%float; 0%float]) /\
  value (to_numpy_array
           (run [OpSetAnsatz sample_ansatz; OpCompute None None;
                 OpSetExcitationList sample_excitations] init))
    = Return (Some [0%float; 0%float]).
Proof. split; reflexivity. Qed.

(** C7: after every sequence of calls on a new instance, whenever both the
    cached vector and the excitation list are defined, the length of the
    vector is the length of the excitation list. *)
Theorem vector_length_invariant
    (ops : list Op) (v : ndarray) (l : list excitation) :
  _parameters (run ops init) = Some v ->
  _excitation_list (run ops init) = Some l ->
  length v = length l.
Proof.
  intros Hv Hl.
  pose proof (cache_ok_run ops init cache_ok_init) as Hc.
  unfold cache_ok in Hc. rewrite Hv, Hl in Hc. subst v.
  apply length_np_zeros.
Qed.

Lemma vector_length_invariant_witness :
  _parameters
    (run [OpSetExcitationList sample_excitations; OpSetAnsatz sample_ansatz;
          OpSetGroupedProperty container_with_energy; OpToNumpyArray;
          OpGetEnergy] init)
    = Some [0%float; 0%float; 0%float] /\
  _excitation_list
    (run [OpSetExcitationList sample_excitations; OpSetAnsatz sample_ansatz;
          OpSetGroupedProperty container_with_energy; OpToNumpyArray;
          OpGetEnergy] init)
    = Some sample_ansatz_list /\
  length [0%float; 0%float; 0%float] = length sample_ansatz_list.
Proof.
  split; [reflexivity|]. split; [reflexivity|].
  apply (vector_length_invariant
           [OpSetExcitationList sample_excitations; OpSetAnsatz sample_ansatz;
            OpSetGroupedProperty container_with_energy; OpToNumpyArray;
            OpGetEnergy]);
    reflexivity.
Defined.

(** C8: on every instance with an excitation list, two calls of [compute()]
    in succession both return, and leave the same vector, and the same
    instance, behind. *)
Theorem compute_idempotent (s : HFInitialPoint) (l : list excitation) :
  _excitation_list s = Some l ->
  value (compute None None s) = Return tt /\
  value (compute None None (self_after (compute None None s))) = Return tt /\
  _parameters (self_after (compute None None s))
    = Some (np_zeros (length l)) /\
  _parameters (self_after (compute None None (self_after (compute None None s))))
    = _parameters (self_after (compute None None s)) /\
  self_after (compute None None (self_after (compute None None s)))
    = self_after (compute None None s).
Proof.
  intros Hl. rewrite (compute_bare_some s l Hl). cbn [self_after value].
  rewrite (compute_bare_some (set_parameters _ s) l Hl).
  repeat split.
Qed.

Lemma compute_idempotent_witness :
  _excitation_list (run [OpSetExcitationList sample_excitations] init)
    = Some sample_excitations /\
  value (compute None None (run [OpSetExcitationList sample_excitations] init))
    = Return tt /\
  value (compute None None
           (self_after
              (compute None None
                 (run [OpSetExcitationList sample_excitations] init))))
    = Return tt /\
  _parameters
    (self_after
       (compute None None (run [OpSetExcitationList sample_excitations] init)))
    = Some (np_zeros (length sample_excitations)) /\
  _parameters
    (self_after
       (compute None None
          (self_after
             (compute None None
                (run [OpSetExcitationList sample_excitations] init)))))
    = _parameters
        (self_after
           (compute None None
              (run [OpSetExcitationList sample_excitations] init))) /\
  self_after
    (compute None None
       (self_after
          (compute None None
             (run [OpSetExcitationList sample_excitations] init))))
    = self_after
        (compute None None (run [OpSetExcitationList sample_excitations] init)).
Proof.
  split; [reflexivity|].
  apply (compute_idempotent
           (run [OpSetExcitationList sample_excitations] init)
           sample_excitations).
  reflexivity.
Defined.

(** C9: on every instance with a stored ansatz, assigning an excitation list
    clears the cached vector and leaves the stored ansatz and the stored
    reference energy as they were. *)
Theorem excitation_list_setter_frame
    (s : HFInitialPoint) (a : UCC) (l : list excitation) :
  _ansatz s = Some a ->
  _parameters (self_after (excitation_list_setter l s)) = None /\
  _ansatz (self_after (excitation_list_setter l s)) = Some a /\
  _reference_energy (self_after (excitation_list_setter l s))
    = _reference_energy s /\
  _excitation_list (self_after (excitation_list_setter l s)) = Some l.
Proof.
  intros Ha. cbn. rewrite Ha. repeat split.
Qed.

Lemma excitation_list_setter_frame_witness :
  _ansatz (run [OpCompute (Some sample_ansatz) (Some container_with_energy)] init)
    = Some (operators sample_ansatz) /\
  _parameters
    (self_after
       (excitation_list_setter sample_excitations
          (run [OpCompute (Some sample_ansatz) (Some container_with_energy)] init)))
    = None /\
  _ansatz
    (self_after
       (excitation_list_setter sample_excitations
          (run [OpCompute (Some sample_ansatz) (Some container_with_energy)] init)))
    = Some (operators sample_ansatz) /\
  _reference_energy
    (self_after
       (excitation_list_setter sample_excitations
          (run [OpCompute (Some sample_ansatz) (Some container_with_energy)] init)))
    = _reference_energy
        (run [OpCompute (Some sample_ansatz) (Some container_with_energy)] init) /\
  _excitation_list
    (self_after
       (excitation_list_setter sample_excitations
          (run [OpCompute (Some sample_ansatz) (Some container_with_energy)] init)))
    = Some sample_excitations.
Proof.
  split; [reflexivity|].
  apply (excitation_list_setter_frame
           (run [OpCompute (Some sample_ansatz) (Some container_with_energy)] init)
           (operators sample_ansatz) sample_excitations).
  reflexivity.
Defined.

(** ** Failure of [compute] after the container was applied *)

(** C10, amended: [compute(ansatz=None, grouped_property=g)] on an instance
    without an excitation list raises [QiskitNatureError] after the setter of
    the container has run: the instance left behind is the one the setter
    leaves, and the warnings are the setter's.  When g yields an electronic
    energy, the stored reference energy and [get_energy()] are those of g, g
    is stored, and the instance is the one before the call exactly when it
    already stored g with that energy.  When g yields no electronic energy the
    instance is the one before the call. *)
Theorem compute_raises_after_applying_container
    (s : HFInitialPoint) (g : GroupedSecondQuantizedProperty) :
  _excitation_list s = None ->
  value (compute None (Some g) s)
    = Raise (QiskitNatureError no_excitations_message) /\
  self_after (compute None (Some g) s)
    = self_after (grouped_property_setter g s) /\
  warned (compute None (Some g) s) = warned (grouped_property_setter g s) /\
  (forall e : ElectronicEnergy,
     get_property_ElectronicEnergy g = Some e ->
     _reference_energy (self_after (compute None (Some g) s))
       = reference_energy e /\
     value (get_energy (self_after (compute None (Some g) s)))
       = Return (reference_energy e) /\
     _grouped_property (self_after (compute None (Some g) s)) = Some g /\
     (self_after (compute None (Some g) s) = s <->
        _grouped_property s = Some g /\
        _reference_energy s = reference_energy e)) /\
  (get_property_ElectronicEnergy g = None ->
   self_after (compute None (Some g) s) = s).
Proof.
  intros Hs.
  destruct (get_property_ElectronicEnergy g) as [e|] eqn:Hg.
  - rewrite (grouped_property_setter_some g e s Hg).
    unfold compute, bind. rewrite (grouped_property_setter_some g e s Hg).
    cbn. rewrite Hs. cbn.
    split; [reflexivity|]. split; [reflexivity|]. split; [reflexivity|].
    split; [|discriminate].
    intros e' [= <-]. split; [reflexivity|]. split; [reflexivity|].
    split; [reflexivity|]. split.
    + intros H. split.
      * apply (f_equal _grouped_property) in H. symmetry. exact H.
      * apply (f_equal _reference_energy) in H. symmetry. exact H.
    + intros [H1 H2]. destruct s. cbn in *. subst. reflexivity.
  - rewrite (grouped_property_setter_none g s Hg).
    unfold compute, bind. rewrite (grouped_property_setter_none g s Hg).
    cbn. rewrite Hs. cbn.
    split; [reflexivity|]. split; [reflexivity|]. split; [reflexivity|].
    split; [discriminate|reflexivity].
Qed.

Lemma compute_raises_after_applying_container_witness :
  _excitation_list init = None /\
  value (compute None (Some container_with_energy) init)
    = Raise (QiskitNatureError no_excitations_message) /\
  self_after (compute None (Some container_with_energy) init)
    = self_after (grouped_property_setter container_with_energy init) /\
  warned (compute None (Some container_with_energy) init)
    = warned (grouped_property_setter container_with_energy init) /\
  (forall e : ElectronicEnergy,
     get_property_ElectronicEnergy container_with_energy = Some e ->
     _reference_energy (self_after (compute None (Some container_with_energy) init))
       = reference_energy e /\
     value (get_energy
              (self_after (compute None (Some container_with_energy) init)))
       = Return (reference_energy e) /\
     _grouped_property
       (self_after (compute None (Some container_with_energy) init))
       = Some container_with_energy /\
     (self_after (compute None (Some container_with_energy) init) = init <->
        _grouped_property init = Some container_with_energy /\
        _reference_energy init = reference_energy e)) /\
  (get_property_ElectronicEnergy container_with_energy = None ->
   self_after (compute None (Some container_with_energy) init) = init).
Proof.
  split; [reflexivity|].
  apply (compute_raises_after_applying_container init container_with_energy).
  reflexivity.
Defined.

(** C10 as stated fails: with a container that yields no electronic energy
    the failed call leaves a new instance as it was, [get_energy()] still
    returning 0.0; and on an instance that already stores the container the
    failed call leaves the instance as it was, although the container yields
    an energy.  So a failed [compute] does not always change the instance. *)
Lemma compute_failure_can_leave_instance_unchanged :
  (_excitation_list init = None /\
   value (compute None (Some container_without_energy) init)
     = Raise (QiskitNatureError no_excitations_message) /\
   self_after (compute None (Some container_without_energy) init) = init /\
   value (get_energy
            (self_after (compute None (Some container_without_energy) init)))
     = Return (Some 0%float)) /\
  (_excitation_list (run [OpSetGroupedProperty container_with_energy] init)
     = None /\
   value (compute None (Some container_with_energy)
            (run [OpSetGroupedProperty container_with_energy] init))
     = Raise (QiskitNatureError no_excitations_message) /\
   self_after (compute None (Some container_with_energy)
                 (run [OpSetGroupedProperty container_with_energy] init))
     = run [OpSetGroupedProperty container_with_energy] init) /\
  ~ (forall (s : HFInitialPoint) (g : GroupedSecondQuantizedProperty),
       _excitation_list s = None ->
       value (compute None (Some g) s)
         = Raise (QiskitNatureError no_excitations_message) /\
       self_after (compute None (Some g) s) <> s).
Proof.
  split; [repeat split|]. split; [repeat split|].
  intros H.
  destruct (H init container_without_energy eq_refl) as [_ Hne].
  apply Hne. reflexivity.
Qed.

(** On a new instance the failed call has changed the energy from 0.0. *)
Example compute_failure_changes_new_instance :
  value (get_energy init) = Return (Some 0%float) /\
  value (get_energy (self_after (compute None (Some container_with_energy) init)))
    = Return (Some sample_energy) /\
  self_after (compute None (Some container_with_energy) init) <> init.
Proof.
  split; [reflexivity|]. split; [reflexivity|].
  intros H. apply (f_equal _grouped_property) in H. discriminate H.
Qed.

(** ** Further properties of the class *)

(** *** Equations of [compute] and [to_numpy_array] *)

Lemma compute_eq a g s :
  compute a g s =
    match _excitation_list (run (argument_calls a g) s) with
    | Some l =>
        mkResult (Return tt)
          (set_parameters (Some (np_zeros (length l)))
             (run (argument_calls a g) s))
          (argument_warnings g)
    | None =>
        mkResult (Raise (QiskitNatureError no_excitations_message))
          (run (argument_calls a g) s) (argument_warnings g)
    end.
Proof.
  unfold argument_calls, argument_warnings, run.
  destruct g as [g|]; [destruct (get_property_ElectronicEnergy g) eqn:Eg|];
    destruct a as [[n [gl|] [pl|]]|]; cbn [foldl exec app];
    rewrite ?(grouped_property_setter_some g _ s Eg),
            ?(grouped_property_setter_none g s Eg);
    step_calls; rewrite ?Eg; cbn; try reflexivity.
  all: destruct (_excitation_list s) eqn:E; cbn; rewrite ?E; reflexivity.
Qed.

Lemma to_numpy_array_eq s :
  to_numpy_array s =
    match _parameters s with
    | Some v => mkResult (Return (Some v)) s []
    | None =>
        match _excitation_list s with
        | Some l =>
            mkResult (Return (Some (np_zeros (length l))))
              (set_parameters (Some (np_zeros (length l))) s) []
        | None =>
            mkResult (Raise (QiskitNatureError no_excitations_message)) s []
        end
    end.
Proof.
  unfold to_numpy_array, bind, get, ret; cbn -[compute].
  destruct (_parameters s) as [v|] eqn:Ep; cbn -[compute].
  - rewrite Ep. reflexivity.
  - destruct (_excitation_list s) as [l|] eqn:El.
    + rewrite (compute_bare_some s l El). reflexivity.
    + rewrite (compute_bare_none s El). reflexivity.
Qed.

(** What the calls for the arguments of [compute] leave of the excitation
    list. *)
Lemma argument_calls_excitations a g s :
  _excitation_list (run (argument_calls a g) s) =
    match a with
    | Some a => excitation_list (operators a)
    | None => _excitation_list s
    end.
Proof.
  unfold argument_calls, run.
  destruct g as [g|]; [destruct (get_property_ElectronicEnergy g) eqn:Eg|];
    destruct a as [a|]; cbn [foldl exec app];
    rewrite ?(grouped_property_setter_some g _ s Eg),
            ?(grouped_property_setter_none g s Eg);
    reflexivity.
Qed.

(** *** [compute] with arguments *)

(** X1: [compute(ansatz, grouped_property)] ends as [compute()] does after
    the container setter and then the ansatz setter were called for the
    arguments given, leaves the same instance, and its only warnings are those
    of the container setter. *)
Theorem compute_with_arguments_composes
    (a : option UCC) (g : option GroupedSecondQuantizedProperty)
    (s : HFInitialPoint) :
  value (compute a g s)
    = value (compute None None (run (argument_calls a g) s)) /\
  self_after (compute a g s)
    = self_after (compute None None (run (argument_calls a g) s)) /\
  warned (compute a g s) = argument_warnings g.
Proof.
  rewrite (compute_eq a g s).
  set (s' := run (argument_calls a g) s).
  rewrite (compute_eq None None s').
  change (run (argument_calls None None) s') with s'.
  destruct (_excitation_list s'); repeat split.
Qed.

(** X2: neither [compute] nor [to_numpy_array] ever raises the [TypeError] of
    [len(None)]: the test of [compute] keeps [_compute] from an instance
    without an excitation list, on which [_compute] alone raises it. *)
Theorem len_of_None_is_guarded :
  (forall a g s msg, value (compute a g s) <> Raise (TypeError msg)) /\
  (forall s msg, value (to_numpy_array s) <> Raise (TypeError msg)) /\
  (forall s, _excitation_list s = None ->
     exists msg, value (_compute s) = Raise (TypeError msg)).
Proof.
  split; [|split].
  - intros a g s msg. rewrite compute_eq.
    destruct (_excitation_list _); discriminate.
  - intros s msg. rewrite to_numpy_array_eq.
    destruct (_parameters s); [discriminate|].
    destruct (_excitation_list s); discriminate.
  - intros s Hs. unfold _compute, bind, get. cbn. rewrite Hs. cbn.
    eexists. reflexivity.
Qed.

(** X3: without an ansatz argument [compute] raises [QiskitNatureError]
    exactly when the instance has no excitation list, and returns exactly when
    it has one, whatever container is passed. *)
Theorem compute_fails_iff_no_excitations
    (g : option GroupedSecondQuantizedProperty) (s : HFInitialPoint) :
  (value (compute None g s) = Raise (QiskitNatureError no_excitations_message)
     <-> _excitation_list s = None) /\
  (value (compute None g s) = Return tt <-> _excitation_list s <> None).
Proof.
  rewrite compute_eq, (argument_calls_excitations None g s).
  destruct (_excitation_list s) as [l|]; cbn; split; split;
    intros H; try reflexivity; try discriminate; try congruence.
Qed.

(** X4: a call [compute()] that raises has changed nothing: the instance is
    the one before the call, no warning was emitted, and the exception is the
    [QiskitNatureError]. *)
Theorem compute_failure_is_atomic (s : HFInitialPoint) (e : exn) :
  value (compute None None s) = Raise e ->
  compute None None s
    = mkResult (Raise (QiskitNatureError no_excitations_message)) s [].
Proof.
  intros H. destruct (_excitation_list s) as [l|] eqn:El.
  - rewrite (compute_bare_some s l El) in H. discriminate H.
  - apply compute_bare_none, El.
Qed.

Lemma compute_failure_is_atomic_witness :
  value (compute None None init)
    = Raise (QiskitNatureError no_excitations_message) /\
  compute None None init
    = mkResult (Raise (QiskitNatureError no_excitations_message)) init [].
Proof.
  split; [reflexivity|].
  apply (compute_failure_is_atomic init
           (QiskitNatureError no_excitations_message)).
  reflexivity.
Defined.

(** X5: [compute(grouped_property=g)] on an instance without an excitation
    list, with a container g that yields no electronic energy, raises
    [QiskitNatureError] after emitting the warning of the setter, and leaves
    the instance as it was. *)
Theorem compute_failure_with_useless_container
    (s : HFInitialPoint) (g : GroupedSecondQuantizedProperty) :
  _excitation_list s = None ->
  get_property_ElectronicEnergy g = None ->
  compute None (Some g) s
    = mkResult (Raise (QiskitNatureError no_excitations_message)) s
        [missing_energy_warning].
Proof.
  intros Hs Hg. rewrite compute_eq, argument_calls_excitations, Hs.
  unfold argument_warnings, argument_calls, run. rewrite Hg.
  cbn [app foldl exec]. rewrite (grouped_property_setter_none g s Hg).
  reflexivity.
Qed.

Lemma compute_failure_with_useless_container_witness :
  _excitation_list init = None /\
  get_property_ElectronicEnergy container_without_energy = None /\
  compute None (Some container_without_energy) init
    = mkResult (Raise (QiskitNatureError no_excitations_message)) init
        [missing_energy_warning].
Proof.
  split; [reflexivity|]. split; [reflexivity|].
  apply (compute_failure_with_useless_container init container_without_energy);
    reflexivity.
Defined.

(** X6: with an ansatz a whose excitation list, after its operators were
    built, is a list la, [compute(ansatz=a)] succeeds on every instance, also
    a new one: it returns, stores the ansatz, takes la as excitation list and
    caches the zero vector of the length of la. *)
Theorem compute_with_ansatz_succeeds
    (s : HFInitialPoint) (a : UCC)
    (g : option GroupedSecondQuantizedProperty) (la : list excitation) :
  excitation_list (operators a) = Some la ->
  value (compute (Some a) g s) = Return tt /\
  _ansatz (self_after (compute (Some a) g s)) = Some (operators a) /\
  _excitation_list (self_after (compute (Some a) g s)) = Some la /\
  _parameters (self_after (compute (Some a) g s))
    = Some (np_zeros (length la)).
Proof.
  intros Ha.
  pose proof (argument_calls_excitations (Some a) g s) as Hl.
  cbv iota in Hl. rewrite Ha in Hl. rewrite compute_eq, Hl.
  cbn [value self_after]. split; [reflexivity|].
  split; [|split; [exact Hl|reflexivity]].
  unfold argument_calls, run. rewrite foldl_app. reflexivity.
Qed.

Lemma compute_with_ansatz_succeeds_witness :
  excitation_list (operators sample_ansatz)
    = Some sample_ansatz_list /\
  value (compute (Some sample_ansatz) None init) = Return tt /\
  _ansatz (self_after (compute (Some sample_ansatz) None init))
    = Some (operators sample_ansatz) /\
  _excitation_list (self_after (compute (Some sample_ansatz) None init))
    = Some sample_ansatz_list /\
  _parameters (self_after (compute (Some sample_ansatz) None init))
    = Some (np_zeros (length sample_ansatz_list)).
Proof.
  split; [reflexivity|].
  apply (compute_with_ansatz_succeeds init sample_ansatz None
           sample_ansatz_list).
  reflexivity.
Defined.

(** *** [to_numpy_array] *)

(** X7: after any sequence of calls on a new instance that leaves it without
    an excitation list, [to_numpy_array()] raises the [QiskitNatureError] of
    [compute], emits no warning and leaves the instance as it was. *)
Theorem to_numpy_array_without_excitations (ops : list Op) :
  _excitation_list (run ops init) = None ->
  to_numpy_array (run ops init)
    = mkResult (Raise (QiskitNatureError no_excitations_message))
        (run ops init) [].
Proof.
  intros Hl.
  pose proof (cache_ok_run ops init cache_ok_init) as Hc.
  unfold cache_ok in Hc. rewrite to_numpy_array_eq, Hl.
  destruct (_parameters (run ops init)); [|reflexivity].
  rewrite Hl in Hc. destruct Hc.
Qed.

Lemma to_numpy_array_without_excitations_witness :
  _excitation_list
    (run [OpSetGroupedProperty container_with_energy; OpCompute None None] init)
    = None /\
  to_numpy_array
    (run [OpSetGroupedProperty container_with_energy; OpCompute None None] init)
    = mkResult (Raise (QiskitNatureError no_excitations_message))
        (run [OpSetGroupedProperty container_with_energy; OpCompute None None]
           init) [].
Proof.
  split; [reflexivity|].
  apply (to_numpy_array_without_excitations
           [OpSetGroupedProperty container_with_energy; OpCompute None None]).
  reflexivity.
Defined.

(** X8: on every instance, a call of [to_numpy_array()] that returns, returns
    a vector, never [None], and that vector is the one cached afterwards. *)
Theorem to_numpy_array_returns_a_vector
    (s : HFInitialPoint) (r : option ndarray) :
  value (to_numpy_array s) = Return r ->
  exists v : ndarray,
    r = Some v /\ _parameters (self_after (to_numpy_array s)) = Some v.
Proof.
  rewrite to_numpy_array_eq.
  destruct (_parameters s) as [v|] eqn:Ep.
  - cbn. intros [= <-]. exists v. split; [reflexivity|exact Ep].
  - destruct (_excitation_list s) as [l|]; cbn; [|discriminate].
    intros [= <-]. eexists. split; reflexivity.
Qed.

Lemma to_numpy_array_returns_a_vector_witness :
  value (to_numpy_array (run [OpSetAnsatz sample_ansatz] init))
    = Return (Some (np_zeros 3)) /\
  exists v : ndarray,
    Some (np_zeros 3) = Some v /\
    _parameters
      (self_after (to_numpy_array (run [OpSetAnsatz sample_ansatz] init)))
      = Some v.
Proof.
  split; [reflexivity|].
  apply (to_numpy_array_returns_a_vector
           (run [OpSetAnsatz sample_ansatz] init) (Some (np_zeros 3))).
  reflexivity.
Defined.

(** X9: after a call of [to_numpy_array()] that returned, a second call
    returns the same value without changing the instance and without a
    warning: the vector is served from the cache. *)
Theorem to_numpy_array_is_cached (s : HFInitialPoint) (r : option ndarray) :
  value (to_numpy_array s) = Return r ->
  to_numpy_array (self_after (to_numpy_array s))
    = mkResult (Return r) (self_after (to_numpy_array s)) [].
Proof.
  rewrite (to_numpy_array_eq s).
  destruct (_parameters s) as [v|] eqn:Ep.
  - cbn [value self_after]. intros [= <-].
    rewrite to_numpy_array_eq, Ep. reflexivity.
  - destruct (_excitation_list s) as [l|]; cbn [value self_after];
      [|discriminate].
    intros [= <-]. rewrite to_numpy_array_eq. reflexivity.
Qed.

Lemma to_numpy_array_is_cached_witness :
  value (to_numpy_array (run [OpSetExcitationList sample_excitations] init))
    = Return (Some (np_zeros 2)) /\
  to_numpy_array
    (self_after
       (to_numpy_array (run [OpSetExcitationList sample_excitations] init)))
    = mkResult (Return (Some (np_zeros 2)))
        (self_after
           (to_numpy_array (run [OpSetExcitationList sample_excitations] init)))
        [].
Proof.
  split; [reflexivity|].
  apply (to_numpy_array_is_cached
           (run [OpSetExcitationList sample_excitations] init)
           (Some (np_zeros 2))).
  reflexivity.
Defined.

(** X10: assigning a property container, with or without an electronic
    energy, does not invalidate the cached vector: cache, excitation list and
    ansatz stay, and [to_numpy_array()] answers as it would have before. *)
Theorem grouped_property_setter_keeps_cache
    (s : HFInitialPoint) (g : GroupedSecondQuantizedProperty) :
  _parameters (self_after (grouped_property_setter g s)) = _parameters s /\
  _excitation_list (self_after (grouped_property_setter g s))
    = _excitation_list s /\
  _ansatz (self_after (grouped_property_setter g s)) = _ansatz s /\
  value (to_numpy_array (self_after (grouped_property_setter g s)))
    = value (to_numpy_array s).
Proof.
  destruct (grouped_property_setter_frame g s) as (He & Hp & Ha).
  cbv zeta in He, Hp, Ha.
  split; [exact Hp|]. split; [exact He|]. split; [exact Ha|].
  rewrite !to_numpy_array_eq, Hp, He.
  destruct (_parameters s); [reflexivity|].
  destruct (_excitation_list s); reflexivity.
Qed.

(** *** What one call changes *)

Ltac argument_cases a g s :=
  unfold argument_calls, run;
  destruct g as [g|];
    [let Eg := fresh "Eg" in
     destruct (get_property_ElectronicEnergy g) eqn:Eg;
     destruct a as [a|]; cbn [foldl exec app];
     rewrite ?(grouped_property_setter_some g _ s Eg),
             ?(grouped_property_setter_none g s Eg)
    |destruct a as [a|]; cbn [foldl exec app]].

Lemma argument_calls_ansatz a g s :
  _ansatz (run (argument_calls a g) s) =
    match a with
    | Some a => Some (operators a)
    | None => _ansatz s
    end.
Proof. argument_cases a g s; reflexivity. Qed.

Lemma argument_calls_energy a g s :
  _reference_energy (run (argument_calls a g) s) =
    match g with
    | Some g =>
        match get_property_ElectronicEnergy g with
        | Some e => reference_energy e
        | None => _reference_energy s
        end
    | None => _reference_energy s
    end /\
  _grouped_property (run (argument_calls a g) s) =
    match g with
    | Some g =>
        match get_property_ElectronicEnergy g with
        | Some _ => Some g
        | None => _grouped_property s
        end
    | None => _grouped_property s
    end.
Proof. argument_cases a g s; rewrite ?Eg; split; reflexivity. Qed.

(** [compute] leaves every field but the cache as the calls for its arguments
    left it. *)
Lemma compute_frame a g s :
  _ansatz (self_after (compute a g s))
    = _ansatz (run (argument_calls a g) s) /\
  _excitation_list (self_after (compute a g s))
    = _excitation_list (run (argument_calls a g) s) /\
  _reference_energy (self_after (compute a g s))
    = _reference_energy (run (argument_calls a g) s) /\
  _grouped_property (self_after (compute a g s))
    = _grouped_property (run (argument_calls a g) s).
Proof.
  rewrite compute_eq. set (s' := run (argument_calls a g) s).
  destruct (_excitation_list s') eqn:E; cbn; rewrite ?E; auto.
Qed.

(** [to_numpy_array] leaves every field but the cache alone. *)
Lemma to_numpy_array_frame s :
  _ansatz (self_after (to_numpy_array s)) = _ansatz s /\
  _excitation_list (self_after (to_numpy_array s)) = _excitation_list s /\
  _reference_energy (self_after (to_numpy_array s)) = _reference_energy s /\
  _grouped_property (self_after (to_numpy_array s)) = _grouped_property s.
Proof.
  rewrite to_numpy_array_eq.
  destruct (_parameters s); [cbn; auto|].
  destruct (_excitation_list s) eqn:E; cbn; rewrite ?E; auto.
Qed.

Lemma exec_excitations s o :
  _excitation_list (exec s o) =
    match o with
    | OpSetAnsatz a | OpCompute (Some a) _ => excitation_list (operators a)
    | OpSetExcitationList l => Some l
    | _ => _excitation_list s
    end.
Proof.
  destruct o as [a|l|g|a g| |]; cbn [exec]; try reflexivity.
  - apply (grouped_property_setter_frame g s).
  - destruct (compute_frame a g s) as (_ & -> & _).
    rewrite argument_calls_excitations. destruct a; reflexivity.
  - apply (to_numpy_array_frame s).
Qed.

Lemma exec_ansatz s o :
  _ansatz (exec s o) =
    match o with
    | OpSetAnsatz a | OpCompute (Some a) _ => Some (operators a)
    | _ => _ansatz s
    end.
Proof.
  destruct o as [a|l|g|a g| |]; cbn [exec]; try reflexivity.
  - apply (grouped_property_setter_frame g s).
  - destruct (compute_frame a g s) as (-> & _).
    rewrite argument_calls_ansatz. destruct a; reflexivity.
  - apply (to_numpy_array_frame s).
Qed.

(** A call either leaves energy and container alone, or carries a container
    with an electronic energy and stores both. *)
Lemma exec_energy s o :
  (applies_energy o = false /\
   _reference_energy (exec s o) = _reference_energy s /\
   _grouped_property (exec s o) = _grouped_property s) \/
  (exists g e,
     applies_energy o = true /\
     get_property_ElectronicEnergy g = Some e /\
     _reference_energy (exec s o) = reference_energy e /\
     _grouped_property (exec s o) = Some g).
Proof.
  destruct o as [a|l|g|a g| |]; cbn [exec applies_energy];
    try (left; repeat split; reflexivity).
  - destruct (get_property_ElectronicEnergy g) as [e|] eqn:Eg.
    + right. exists g, e. rewrite (grouped_property_setter_some g e s Eg).
      repeat split. exact Eg.
    + left. rewrite (grouped_property_setter_none g s Eg). repeat split.
  - destruct (compute_frame a g s) as (_ & _ & -> & ->).
    destruct (argument_calls_energy a g s) as (-> & ->).
    destruct g as [g|]; [|left; repeat split].
    destruct (get_property_ElectronicEnergy g) as [e|] eqn:Eg.
    + right. exists g, e. repeat split. exact Eg.
    + left. repeat split.
  - left. destruct (to_numpy_array_frame s) as (_ & _ & -> & ->).
    repeat split.
Qed.

(** *** The reference energy over sequences of calls *)

(** X11: calls that hand over no container with an electronic energy, in any
    number and order, leave the stored reference energy and the stored
    container as they were; on a new instance [get_energy()] still returns
    0.0 after them. *)
Theorem energy_changes_only_with_a_container
    (ops : list Op) (s : HFInitialPoint) :
  forallb (fun o => negb (applies_energy o)) ops = true ->
  value (get_energy (run ops s)) = value (get_energy s) /\
  value (grouped_property_getter (run ops s))
    = value (grouped_property_getter s) /\
  value (get_energy (run ops init)) = Return (Some 0%float).
Proof.
  intros Hops.
  assert (H : forall s0, _reference_energy (run ops s0) = _reference_energy s0 /\
                         _grouped_property (run ops s0) = _grouped_property s0).
  { unfold run. induction ops as [|o ops IH]; intros s0; cbn [foldl].
    - split; reflexivity.
    - cbn [forallb] in Hops. apply andb_prop in Hops as [Ho Hops].
      destruct (IH Hops (exec s0 o)) as (-> & ->).
      destruct (exec_energy s0 o) as [(_ & He & Hg)|(g & e & Ha & _)].
      + split; assumption.
      + rewrite Ha in Ho. discriminate Ho. }
  destruct (H s) as (He & Hg). destruct (H init) as (Hi & _).
  unfold get_energy, grouped_property_getter, bind, get, ret.
  cbn [value self_after]. rewrite He, Hg, Hi. repeat split.
Qed.

Lemma energy_changes_only_with_a_container_witness :
  forallb (fun o => negb (applies_energy o))
    [OpSetAnsatz sample_ansatz; OpSetGroupedProperty container_without_energy;
     OpCompute None None; OpToNumpyArray] = true /\
  value (get_energy
           (run [OpSetAnsatz sample_ansatz;
                 OpSetGroupedProperty container_without_energy;
                 OpCompute None None; OpToNumpyArray]
              (run [OpSetGroupedProperty container_with_energy] init)))
    = value (get_energy (run [OpSetGroupedProperty container_with_energy] init)) /\
  value (grouped_property_getter
           (run [OpSetAnsatz sample_ansatz;
                 OpSetGroupedProperty container_without_energy;
                 OpCompute None None; OpToNumpyArray]
              (run [OpSetGroupedProperty container_with_energy] init)))
    = value (grouped_property_getter
               (run [OpSetGroupedProperty container_with_energy] init)) /\
  value (get_energy
           (run [OpSetAnsatz sample_ansatz;
                 OpSetGroupedProperty container_without_energy;
                 OpCompute None None; OpToNumpyArray] init))
    = Return (Some 0%float).
Proof.
  split; [reflexivity|].
  apply (energy_changes_only_with_a_container
           [OpSetAnsatz sample_ansatz;
            OpSetGroupedProperty container_without_energy;
            OpCompute None None; OpToNumpyArray]
           (run [OpSetGroupedProperty container_with_energy] init)).
  reflexivity.
Defined.

Lemma energy_ok_run ops : forall s, energy_ok s -> energy_ok (run ops s).
Proof.
  unfold run. induction ops as [|o ops IH]; intros s Hs; cbn [foldl].
  - exact Hs.
  - apply IH. unfold energy_ok in *.
    destruct (exec_energy s o) as [(_ & -> & ->)|(g & e & _ & Hg & -> & ->)].
    + exact Hs.
    + exists e. split; [exact Hg|reflexivity].
Qed.

(** X12: after every sequence of calls on a new instance, when the
    [grouped_property] getter returns a container, that container yields an
    electronic energy and [get_energy()] returns its reference energy; when
    the getter returns [None], [get_energy()] returns 0.0. *)
Theorem energy_is_that_of_stored_container (ops : list Op) :
  match value (grouped_property_getter (run ops init)) with
  | Return (Some g) =>
      exists e, get_property_ElectronicEnergy g = Some e /\
                value (get_energy (run ops init)) = Return (reference_energy e)
  | Return None => value (get_energy (run ops init)) = Return (Some 0%float)
  | Raise _ => False
  end.
Proof.
  pose proof (energy_ok_run ops init eq_refl) as H. unfold energy_ok in H.
  unfold get_energy, grouped_property_getter, bind, get, ret.
  cbn [value self_after].
  destruct (_grouped_property (run ops init)) as [g|].
  - destruct H as (e & Hg & He). exists e. rewrite He. split; [exact Hg|reflexivity].
  - rewrite H. reflexivity.
Qed.

(** *** The excitation list over sequences of calls *)

(** X13: once an instance has an excitation list, no sequence of calls
    takes it away again, as long as every ansatz handed over yields an
    excitation list: afterwards there still is one, and [compute()]
    returns. *)
Theorem excitation_list_stays_set
    (ops : list Op) (s : HFInitialPoint) (l : list excitation) :
  forallb (fun o => negb (ansatz_without_list o)) ops = true ->
  _excitation_list s = Some l ->
  exists l' : list excitation,
    _excitation_list (run ops s) = Some l' /\
    value (compute None None (run ops s)) = Return tt.
Proof.
  intros Hops Hl.
  assert (H : exists l', _excitation_list (run ops s) = Some l').
  { revert s l Hl. unfold run.
    induction ops as [|o ops IH]; intros s l Hl; cbn [foldl].
    - exists l. exact Hl.
    - cbn [forallb] in Hops. apply andb_prop in Hops as [Ho Hops].
      pose proof (exec_excitations s o) as He.
      destruct o as [a|l0|g|[a|] g| |]; cbv iota in He;
        cbn [ansatz_without_list] in Ho;
        try (destruct (excitation_list (operators a));
             [|discriminate Ho]);
        first [ apply (IH Hops _ _ He)
              | rewrite Hl in He; apply (IH Hops _ _ He) ]. }
  destruct H as [l' Hl']. exists l'. split; [exact Hl'|].
  rewrite (compute_bare_some _ l' Hl'). reflexivity.
Qed.

Lemma excitation_list_stays_set_witness :
  forallb (fun o => negb (ansatz_without_list o))
    [OpSetGroupedProperty container_without_energy; OpToNumpyArray;
     OpSetAnsatz sample_ansatz; OpCompute None (Some container_with_energy)]
    = true /\
  _excitation_list (run [OpSetExcitationList sample_excitations] init)
    = Some sample_excitations /\
  exists l' : list excitation,
    _excitation_list
      (run [OpSetGroupedProperty container_without_energy; OpToNumpyArray;
            OpSetAnsatz sample_ansatz; OpCompute None (Some container_with_energy)]
         (run [OpSetExcitationList sample_excitations] init))
      = Some l' /\
    value (compute None None
             (run [OpSetGroupedProperty container_without_energy; OpToNumpyArray;
                   OpSetAnsatz sample_ansatz;
                   OpCompute None (Some container_with_energy)]
                (run [OpSetExcitationList sample_excitations] init)))
      = Return tt.
Proof.
  split; [reflexivity|]. split; [reflexivity|].
  apply (excitation_list_stays_set
           [OpSetGroupedProperty container_without_energy; OpToNumpyArray;
            OpSetAnsatz sample_ansatz; OpCompute None (Some container_with_energy)]
           (run [OpSetExcitationList sample_excitations] init)
           sample_excitations);
    reflexivity.
Defined.

(** X14: assigning an ansatz after an excitation list was assigned and a
    vector computed clears the cache and replaces the list by the one of the
    ansatz: the [excitation_list] getter returns that list and
    [to_numpy_array()] the zero vector of its length. *)
Theorem ansatz_overwrites_excitation_list
    (s : HFInitialPoint) (l : list excitation) (a : UCC)
    (la : list excitation) :
  excitation_list (operators a) = Some la ->
  _parameters
    (run [OpSetExcitationList l; OpCompute None None; OpSetAnsatz a] s) = None /\
  value (excitation_list_getter
           (run [OpSetExcitationList l; OpCompute None None; OpSetAnsatz a] s))
    = Return (Some la) /\
  value (to_numpy_array
           (run [OpSetExcitationList l; OpCompute None None; OpSetAnsatz a] s))
    = Return (Some (np_zeros (length la))).
Proof.
  intros Ha.
  change (run [OpSetExcitationList l; OpCompute None None; OpSetAnsatz a] s)
    with (set_ansatz (Some (operators a))
            (set_excitation_list (excitation_list (operators a))
               (set_parameters None
                  (run [OpSetExcitationList l; OpCompute None None] s)))).
  rewrite Ha. repeat split.
Qed.

Lemma ansatz_overwrites_excitation_list_witness :
  excitation_list (operators sample_ansatz)
    = Some sample_ansatz_list /\
  _parameters
    (run [OpSetExcitationList sample_excitations; OpCompute None None;
          OpSetAnsatz sample_ansatz] init) = None /\
  value (excitation_list_getter
           (run [OpSetExcitationList sample_excitations; OpCompute None None;
                 OpSetAnsatz sample_ansatz] init))
    = Return (Some sample_ansatz_list) /\
  value (to_numpy_array
           (run [OpSetExcitationList sample_excitations; OpCompute None None;
                 OpSetAnsatz sample_ansatz] init))
    = Return (Some (np_zeros (length sample_ansatz_list))).
Proof.
  split; [reflexivity|].
  apply (ansatz_overwrites_excitation_list init sample_excitations
           sample_ansatz sample_ansatz_list).
  reflexivity.
Defined.

(** X15: as long as the excitation list is never assigned directly, the
    [excitation_list] getter returns the excitation list of the ansatz the
    [ansatz] getter returns, and [None] when there is no ansatz. *)
Theorem excitation_list_agrees_with_ansatz (ops : list Op) :
  forallb (fun o => negb (sets_list_directly o)) ops = true ->
  value (excitation_list_getter (run ops init))
    = Return (list_of_ansatz (run ops init)) /\
  value (ansatz_getter (run ops init)) = Return (_ansatz (run ops init)).
Proof.
  intros Hops. split; [|reflexivity].
  assert (H : forall s, _excitation_list s = list_of_ansatz s ->
                        _excitation_list (run ops s) = list_of_ansatz (run ops s)).
  { unfold run. induction ops as [|o ops IH]; intros s Hs; cbn [foldl].
    - exact Hs.
    - cbn [forallb] in Hops. apply andb_prop in Hops as [Ho Hops].
      apply (IH Hops). unfold list_of_ansatz in *.
      rewrite exec_excitations, exec_ansatz.
      destruct o as [a|l0|g|[a|] g| |]; try exact Hs; try reflexivity.
      discriminate Ho. }
  unfold excitation_list_getter, bind, get, ret. cbn [value self_after].
  rewrite (H init eq_refl). reflexivity.
Qed.

Lemma excitation_list_agrees_with_ansatz_witness :
  forallb (fun o => negb (sets_list_directly o))
    [OpCompute (Some sample_ansatz) None; OpToNumpyArray;
     OpSetGroupedProperty container_with_energy] = true /\
  value (excitation_list_getter
           (run [OpCompute (Some sample_ansatz) None; OpToNumpyArray;
                 OpSetGroupedProperty container_with_energy] init))
    = Return (list_of_ansatz
                (run [OpCompute (Some sample_ansatz) None; OpToNumpyArray;
                      OpSetGroupedProperty container_with_energy] init)) /\
  value (ansatz_getter
           (run [OpCompute (Some sample_ansatz) None; OpToNumpyArray;
                 OpSetGroupedProperty container_with_energy] init))
    = Return (_ansatz
                (run [OpCompute (Some sample_ansatz) None; OpToNumpyArray;
                      OpSetGroupedProperty container_with_energy] init)).
Proof.
  split; [reflexivity|].
  apply (excitation_list_agrees_with_ansatz
           [OpCompute (Some sample_ansatz) None; OpToNumpyArray;
            OpSetGroupedProperty container_with_energy]).
  reflexivity.
Defined.

(** X16: assigning, after an ansatz, an excitation list whose length differs
    from the length of the list of the ansatz leaves the ansatz stored: the
    two getters then disagree, and the vector [to_numpy_array()] returns has
    the length of the assigned list, not the one of the list of the ansatz. *)
Theorem direct_list_diverges_from_ansatz
    (s : HFInitialPoint) (a : UCC) (l la : list excitation) :
  excitation_list (operators a) = Some la ->
  length la <> length l ->
  value (ansatz_getter (run [OpSetAnsatz a; OpSetExcitationList l] s))
    = Return (Some (operators a)) /\
  value (excitation_list_getter (run [OpSetAnsatz a; OpSetExcitationList l] s))
    = Return (Some l) /\
  list_of_ansatz (run [OpSetAnsatz a; OpSetExcitationList l] s) = Some la /\
  exists v : ndarray,
    value (to_numpy_array (run [OpSetAnsatz a; OpSetExcitationList l] s))
      = Return (Some v) /\
    length v = length l /\
    length v <> length la.
Proof.
  intros Ha Hne.
  split; [reflexivity|]. split; [reflexivity|]. split; [exact Ha|].
  exists (np_zeros (length l)). split; [reflexivity|].
  rewrite length_np_zeros. split; [reflexivity|].
  intros H. apply Hne. symmetry. exact H.
Qed.

Lemma direct_list_diverges_from_ansatz_witness :
  excitation_list (operators sample_ansatz)
    = Some sample_ansatz_list /\
  length sample_ansatz_list <> length sample_excitations /\
  value (ansatz_getter
           (run [OpSetAnsatz sample_ansatz;
                 OpSetExcitationList sample_excitations] init))
    = Return (Some (operators sample_ansatz)) /\
  value (excitation_list_getter
           (run [OpSetAnsatz sample_ansatz;
                 OpSetExcitationList sample_excitations] init))
    = Return (Some sample_excitations) /\
  list_of_ansatz
    (run [OpSetAnsatz sample_ansatz; OpSetExcitationList sample_excitations]
       init)
    = Some sample_ansatz_list /\
  exists v : ndarray,
    value (to_numpy_array
             (run [OpSetAnsatz sample_ansatz;
                   OpSetExcitationList sample_excitations] init))
      = Return (Some v) /\
    length v = length sample_excitations /\
    length v <> length sample_ansatz_list.
Proof.
  split; [reflexivity|]. split; [cbn; lia|].
  apply (direct_list_diverges_from_ansatz init sample_ansatz
           sample_excitations sample_ansatz_list);
    [reflexivity | cbn; lia].
Defined.

(** X17: an ansatz whose excitation list is still [None] after its operators
    were built takes the excitation list of the instance away: after it was
    assigned the [excitation_list] getter returns [None] and the [ansatz]
    getter the ansatz, [compute()] and [to_numpy_array()] raise
    [QiskitNatureError], and so does [compute(ansatz=a)] itself. *)
Theorem ansatz_without_list_empties_instance
    (s : HFInitialPoint) (a : UCC)
    (g : option GroupedSecondQuantizedProperty) :
  excitation_list (operators a) = None ->
  value (excitation_list_getter (self_after (ansatz_setter a s)))
    = Return None /\
  value (ansatz_getter (self_after (ansatz_setter a s)))
    = Return (Some (operators a)) /\
  value (compute None None (self_after (ansatz_setter a s)))
    = Raise (QiskitNatureError no_excitations_message) /\
  value (to_numpy_array (self_after (ansatz_setter a s)))
    = Raise (QiskitNatureError no_excitations_message) /\
  value (compute (Some a) g s)
    = Raise (QiskitNatureError no_excitations_message).
Proof.
  intros Ha. split; [|split; [|split; [|split]]].
  - change (Return (excitation_list (operators a)) = Return None).
    rewrite Ha. reflexivity.
  - reflexivity.
  - rewrite compute_bare_none; [reflexivity|exact Ha].
  - rewrite to_numpy_array_eq.
    change (_parameters (self_after (ansatz_setter a s))) with (@None ndarray).
    change (_excitation_list (self_after (ansatz_setter a s)))
      with (excitation_list (operators a)).
    rewrite Ha. reflexivity.
  - rewrite compute_eq, argument_calls_excitations, Ha. reflexivity.
Qed.

Lemma ansatz_without_list_empties_instance_witness :
  excitation_list (operators bare_ansatz) = None /\
  value (excitation_list_getter
           (self_after
              (ansatz_setter bare_ansatz
                 (run [OpSetExcitationList sample_excitations; OpToNumpyArray]
                    init))))
    = Return None /\
  value (ansatz_getter
           (self_after
              (ansatz_setter bare_ansatz
                 (run [OpSetExcitationList sample_excitations; OpToNumpyArray]
                    init))))
    = Return (Some (operators bare_ansatz)) /\
  value (compute None None
           (self_after
              (ansatz_setter bare_ansatz
                 (run [OpSetExcitationList sample_excitations; OpToNumpyArray]
                    init))))
    = Raise (QiskitNatureError no_excitations_message) /\
  value (to_numpy_array
           (self_after
              (ansatz_setter bare_ansatz
                 (run [OpSetExcitationList sample_excitations; OpToNumpyArray]
                    init))))
    = Raise (QiskitNatureError no_excitations_message) /\
  value (compute (Some bare_ansatz) None
           (run [OpSetExcitationList sample_excitations; OpToNumpyArray] init))
    = Raise (QiskitNatureError no_excitations_message).
Proof.
  split; [reflexivity|].
  apply (ansatz_without_list_empties_instance
           (run [OpSetExcitationList sample_excitations; OpToNumpyArray] init)
           bare_ansatz None).
  reflexivity.
Defined.
